(** * supercell: HTTP cache headers and content-type providers

    A shallow embedding of [supercell/api/cache.py] (the [CacheConfig]
    constructor, [compute_cache_header] and the [cache] decorator) together
    with the provider lookup exercised by [test/test_provider.py].

    Python values are modelled as follows.
    - [datetime.timedelta] is the normalised triple (days, seconds,
      microseconds) that CPython stores; the attribute [.seconds] is the
      middle component, not the total number of seconds.
    - An argument that may be [None] is a [pyval].
    - A raised exception is the [Raise] branch of [result].
    - [str.join] and [str.split] work on [string]; ['%s' % n] for an integer
      [n] is its decimal rendering. *)

From Stdlib Require Import ZArith Lia Bool List Ascii String.
From Stdlib Require Import Numbers.DecimalString Numbers.DecimalZ.
From stdpp Require Import base gmap strings.

Local Open Scope Z_scope.
Local Open Scope string_scope.

(** ** Exceptions and results *)

Inductive exn : Type :=
| TypeError
| AttributeError
| OverflowError
| NoProviderFound.

Inductive result (A : Type) : Type :=
| Ok (a : A)
| Raise (e : exn).

Arguments Ok {A} a.
Arguments Raise {A} e.

(** Sequencing: an exception skips the rest of the body. *)
#[global] Instance result_bind : MBind result :=
  fun A B (k : A -> result B) (r : result A) =>
    match r with
    | Ok a => k a
    | Raise e => Raise e
    end.

(** ** [datetime.timedelta] *)

Module Timedelta.

Record timedelta : Type := mk {
  days : Z;
  seconds : Z;
  microseconds : Z
}.

Definition us_per_second : Z := 1000000.
Definition seconds_per_day : Z := 86400.
Definition max_days : Z := 999999999.

(** The invariant CPython maintains on every [timedelta] object. *)
Definition normalised (td : timedelta) : Prop :=
  - max_days <= days td <= max_days /\
  0 <= seconds td < seconds_per_day /\
  0 <= microseconds td < us_per_second.

(** [timedelta(days, seconds, microseconds, milliseconds, minutes, hours,
    weeks)] on integer arguments: everything is folded into microseconds,
    then split with floor division; out-of-range days raise. *)
Definition new (d s us ms mins hours weeks : Z) : result timedelta :=
  let total_us :=
    ((((weeks * 7 + d) * 24 + hours) * 60 + mins) * 60 + s) * us_per_second
    + ms * 1000 + us in
  let total_s := total_us / us_per_second in
  let d' := total_s / seconds_per_day in
  if Z.gtb (Z.abs d') max_days then Raise OverflowError
  else Ok {| days := d';
             seconds := total_s mod seconds_per_day;
             microseconds := total_us mod us_per_second |}.

(** [timedelta.__bool__]: every duration but [timedelta(0)] is truthy. *)
Definition truthy (td : timedelta) : bool :=
  negb (Z.eqb (days td) 0) || negb (Z.eqb (seconds td) 0)
  || negb (Z.eqb (microseconds td) 0).

(** The whole seconds of the duration: [td.total_seconds()] rounded down,
    which is [td // timedelta(seconds=1)]. *)
Definition total_seconds (td : timedelta) : Z :=
  days td * seconds_per_day + seconds td.

Definition zero : timedelta := {| days := 0; seconds := 0; microseconds := 0 |}.

End Timedelta.

Import Timedelta.

(** ** Python values held by the duration fields *)

Inductive pyval : Type :=
| PyNone
| PyTimedelta (td : timedelta).

(** [bool(v)] *)
Definition truthy (v : pyval) : bool :=
  match v with
  | PyNone => false
  | PyTimedelta td => Timedelta.truthy td
  end.

(** [v.seconds]: [None] has no such attribute. *)
Definition getattr_seconds (v : pyval) : result Z :=
  match v with
  | PyNone => Raise AttributeError
  | PyTimedelta td => Ok (seconds td)
  end.

(** ['%s' % n] for an integer [n]. *)
Definition str_of_int (n : Z) : string :=
  NilEmpty.string_of_int (Z.to_int n).

(** ** [CacheConfigT] and [CacheConfig] *)

Record CacheConfigT : Type := mkCacheConfigT {
  max_age : pyval;
  s_max_age : pyval;
  public : bool;
  private : bool;
  no_cache : bool;
  no_store : bool;
  must_revalidate : bool;
  proxy_revalidate : bool
}.

(** The arguments of a call of [CacheConfig] (or of [cache], which has the
    same signature): [None] stands for an argument that was not passed. *)
Record call_args : Type := mkArgs {
  arg_max_age : option pyval;
  arg_s_max_age : option pyval;
  arg_public : option bool;
  arg_private : option bool;
  arg_no_cache : option bool;
  arg_no_store : option bool;
  arg_must_revalidate : option bool;
  arg_proxy_revalidate : option bool
}.

Definition or_default {A : Type} (d : A) (o : option A) : A :=
  match o with
  | Some a => a
  | None => d
  end.

(** [def CacheConfig(max_age, s_max_age=None, public=False, private=False,
                     no_cache=False, no_store=False, must_revalidate=True,
                     proxy_revalidate=False)]
    A call without the required positional argument raises [TypeError]
    before the body runs; the body copies the arguments into the tuple. *)
Definition CacheConfig (a : call_args) : result CacheConfigT :=
  match arg_max_age a with
  | None => Raise TypeError
  | Some m =>
      Ok {| max_age := m;
            s_max_age := or_default PyNone (arg_s_max_age a);
            public := or_default false (arg_public a);
            private := or_default false (arg_private a);
            no_cache := or_default false (arg_no_cache a);
            no_store := or_default false (arg_no_store a);
            must_revalidate := or_default true (arg_must_revalidate a);
            proxy_revalidate := or_default false (arg_proxy_revalidate a) |}
  end.

(** A call that passes [max_age] alone. *)
Definition only_max_age (m : pyval) : call_args :=
  {| arg_max_age := Some m; arg_s_max_age := None; arg_public := None;
     arg_private := None; arg_no_cache := None; arg_no_store := None;
     arg_must_revalidate := None; arg_proxy_revalidate := None |}.

(** A call that passes nothing. *)
Definition no_args : call_args :=
  {| arg_max_age := None; arg_s_max_age := None; arg_public := None;
     arg_private := None; arg_no_cache := None; arg_no_store := None;
     arg_must_revalidate := None; arg_proxy_revalidate := None |}.

(** ** [compute_cache_header] *)

(** [params.append(x)] *)
Definition append (params : list string) (x : string) : list string :=
  params ++ [x].

(** [if cond: params.append(x)] *)
Definition append_if (cond : bool) (params : list string) (x : string)
  : list string :=
  if cond then append params x else params.

(** The list [params] as it stands before the final [join]. *)
Definition compute_params (cache_config : CacheConfigT) : result (list string) :=
  let params := [] in
  secs ← getattr_seconds (max_age cache_config);
  let params := append params ("max-age=" ++ str_of_int secs) in
  params ←
    (if truthy (s_max_age cache_config)
     then s_secs ← getattr_seconds (s_max_age cache_config);
          Ok (append params ("s-max-age=" ++ str_of_int s_secs))
     else Ok params);
  let params := append_if (public cache_config) params "public" in
  let params := append_if (private cache_config) params "private" in
  let params := append_if (no_cache cache_config) params "no-cache" in
  let params := append_if (no_store cache_config) params "no-store" in
  let params := append_if (must_revalidate cache_config) params "must-revalidate" in
  let params := append_if (proxy_revalidate cache_config) params "proxy-revalidate" in
  Ok params.

(** [', '.join(params)] *)
Definition join (sep : string) (params : list string) : string :=
  String.concat sep params.

Definition compute_cache_header (cache_config : CacheConfigT) : result string :=
  params ← compute_params cache_config;
  Ok (join ", " params).


(** ** Reading a header back: [header.split(', ')] *)

(** Put a character in front of the first piece. *)
Definition push_char (c : ascii) (pieces : list string) : list string :=
  match pieces with
  | [] => [String c ""]
  | t :: ts => String c t :: ts
  end.

(** [s.split(', ')]: cut at every occurrence of a comma followed by a
    space, scanning from the left. *)
Fixpoint split (s : string) : list string :=
  match s with
  | EmptyString => [EmptyString]
  | String c rest =>
      match rest with
      | String d rest' =>
          if Ascii.eqb c "," && Ascii.eqb d " "
          then EmptyString :: split rest'
          else push_char c (split rest)
      | EmptyString => push_char c (split rest)
      end
  end.

(** The tokens of a header value. *)
Definition tokens (header : string) : list string := split header.

(** No comma occurs in [s]. *)
Fixpoint comma_free (s : string) : bool :=
  match s with
  | EmptyString => true
  | String c rest => negb (Ascii.eqb c ",") && comma_free rest
  end.

(** [s.startswith(pre)] *)
Fixpoint startswith (pre s : string) : bool :=
  match pre with
  | EmptyString => true
  | String a pre' =>
      match s with
      | EmptyString => false
      | String b s' => Ascii.eqb a b && startswith pre' s'
      end
  end.

(** A token that carries the named directive with a value, as in
    [max-age=600]. *)
Definition is_directive (name token : string) : bool :=
  startswith (name ++ "=") token.



(** ** The directive table of the specification *)

(** The seconds of a duration field as the header shows them. *)
Definition rendered_seconds (v : pyval) : string :=
  match v with
  | PyNone => ""
  | PyTimedelta td => str_of_int (seconds td)
  end.

(** The eight directives in the order the specification lists them, each
    with the condition under which it is emitted. *)
Definition directive_table (c : CacheConfigT) : list (bool * string) :=
  [ (true, "max-age=" ++ rendered_seconds (max_age c));
    (truthy (s_max_age c), "s-max-age=" ++ rendered_seconds (s_max_age c));
    (public c, "public");
    (private c, "private");
    (no_cache c, "no-cache");
    (no_store c, "no-store");
    (must_revalidate c, "must-revalidate");
    (proxy_revalidate c, "proxy-revalidate") ].

(** The table with the directives whose condition is false left out. *)
Definition spec_tokens (c : CacheConfigT) : list string :=
  map snd (filter (fun d => fst d = true) (directive_table c)).

(** ** The [cache] decorator *)

(** What the decorator needs of the request handler: the
    [set_header(name, value)] method of the web framework.  The framework
    keeps the status code and the response body apart from the headers;
    the two laws record that [set_header] leaves them alone. *)
Class Handler (H : Type) : Type := {
  set_header : string -> string -> H -> H;
  status_code : H -> Z;
  body : H -> list string;
  set_header_status_code :
    forall name value self, status_code (set_header name value self) = status_code self;
  set_header_body :
    forall name value self, body (set_header name value self) = body self
}.

(** A handler method [fn(self, *args, **kwargs)]: it may change the handler
    it is called on, and it returns a value or raises.  [V] is the type of
    argument values and [R] the type of returned values. *)
Definition method (H V R : Type) : Type :=
  H -> list V -> list (string * V) -> H * result R.

(** [_func(self, *args, **kwargs)], the function that replaces [fn], with the
    parameters of the enclosing [cache] call bound. *)
Definition _func {H V R : Type} `{Handler H}
    (max_age s_max_age : pyval)
    (public private no_cache no_store must_revalidate proxy_revalidate : bool)
    (fn : method H V R) : method H V R :=
  fun self args kwargs =>
    match
      CacheConfig {| arg_max_age := Some max_age;
                     arg_s_max_age := Some s_max_age;
                     arg_public := Some public;
                     arg_private := Some private;
                     arg_no_cache := Some no_cache;
                     arg_no_store := Some no_store;
                     arg_must_revalidate := Some must_revalidate;
                     arg_proxy_revalidate := Some proxy_revalidate |}
    with
    | Raise e => (self, Raise e)
    | Ok cache_config =>
        match compute_cache_header cache_config with
        | Raise e => (self, Raise e)
        | Ok header =>
            let self := set_header "Cache-Control" header self in
            fn self args kwargs
        end
    end.

(** [cache(max_age, s_max_age=None, ...)]: binding the arguments fails when
    [max_age] is not passed; otherwise the result is [wrapper], which maps
    [fn] to [_func]. *)
Definition cache {H V R : Type} `{Handler H} (a : call_args)
  : result (method H V R -> method H V R) :=
  match arg_max_age a with
  | None => Raise TypeError
  | Some m =>
      Ok (_func m
            (or_default PyNone (arg_s_max_age a))
            (or_default false (arg_public a))
            (or_default false (arg_private a))
            (or_default false (arg_no_cache a))
            (or_default false (arg_no_store a))
            (or_default true (arg_must_revalidate a))
            (or_default false (arg_proxy_revalidate a)))
  end.

(** A handler as the framework has it, reduced to the response it builds:
    the headers by name, the status code and the chunks written so far. *)
Record RequestHandler : Type := mkRequestHandler {
  _headers : gmap string string;
  _status_code : Z;
  _write_buffer : list string
}.

(** [RequestHandler.set_header]: the named header gets the value, replacing
    an earlier one. *)
Definition RequestHandler_set_header (name value : string)
    (self : RequestHandler) : RequestHandler :=
  {| _headers := <[name := value]> (_headers self);
     _status_code := _status_code self;
     _write_buffer := _write_buffer self |}.

#[global] Instance RequestHandler_Handler : Handler RequestHandler := {|
  set_header := RequestHandler_set_header;
  status_code := _status_code;
  body := _write_buffer;
  set_header_status_code := fun _ _ _ => eq_refl;
  set_header_body := fun _ _ _ => eq_refl
|}.

(** ** Content types and the provider lookup *)

Module Provider.

(** [ContentType(content_type, vendor=None, version=None)].  The version is
    kept as the text that stands in a MIME type after [-v]; the literal
    [1.0] of the test classes is the text [1.0]. *)
Record ContentType : Type := mkContentType {
  mime_type : string;
  vendor : option string;
  version : option string
}.

#[global] Instance ContentType_eq_dec : EqDecision ContentType.
Proof. solve_decision. Defined.

#[global] Instance ContentType_countable : Countable ContentType :=
  inj_countable'
    (fun c => (mime_type c, vendor c, version c))
    (fun t => match t with (m, v, r) => mkContentType m v r end)
    (fun c => match c with mkContentType _ _ _ => eq_refl end).

(** The provider classes of [test_provider.py]. *)
Inductive provider : Type :=
| JsonProvider
| MoreDetailedJsonProvider
| JsonProviderWithVendorAndVersion.

(** The [CONTENT_TYPE] attribute of each class. *)
Definition CONTENT_TYPE (p : provider) : ContentType :=
  match p with
  | JsonProvider => mkContentType "application/json" None None
  | MoreDetailedJsonProvider =>
      mkContentType "application/json" (Some "supercell") None
  | JsonProviderWithVendorAndVersion =>
      mkContentType "application/json" (Some "supercell") (Some "1.0")
  end.

(** Cut [s] at the first occurrence of [sep]. *)
Definition cut (sep s : string) : option (string * string) :=
  match String.index 0 sep s with
  | Some i =>
      let j := (i + String.length sep)%nat in
      Some (String.substring 0 i s,
            String.substring j (String.length s - j) s)
  | None => None
  end.

(** Modelled from the spec: the parser of MIME type strings lives in
    [supercell/api/provider.py], which is not part of the sources at hand.
    The three forms of section 6 are read as follows:
    [type/subtype] is a bare type; [type/vnd.<vendor>+<subtype>] names a
    vendor; [type/vnd.<vendor>-v<version>+<subtype>] names a vendor and a
    version.  Anything else is taken as a bare type. *)
Definition parse_content_type (s : string) : ContentType :=
  match cut "/vnd." s with
  | None => mkContentType s None None
  | Some (major, rest) =>
      match cut "+" rest with
      | None => mkContentType s None None
      | Some (who, subtype) =>
          let mime := major ++ "/" ++ subtype in
          match cut "-v" who with
          | None => mkContentType mime (Some who) None
          | Some (v, ver) => mkContentType mime (Some v) (Some ver)
          end
      end
  end.

(** Modelled from the spec: the registry that [ProviderBase] keeps (it is
    filled when a provider class is defined, by code that is not part of
    the sources at hand): every provider class is entered under its
    [CONTENT_TYPE]. *)
Definition register {P : Type} (ct : ContentType) (p : P)
    (reg : gmap ContentType P) : gmap ContentType P :=
  <[ct := p]> reg.

(** Modelled from the spec: the resolution order of section 4.2, which
    [ProviderBase.map_provider] of the missing [supercell/api/provider.py]
    implements: the exact content type first, then type and vendor without
    a version, then the bare type; no match at any level fails. *)
Definition resolve {P : Type} (reg : gmap ContentType P) (ct : ContentType)
  : result P :=
  match reg !! ct with
  | Some p => Ok p
  | None =>
      match reg !! mkContentType (mime_type ct) (vendor ct) None with
      | Some p => Ok p
      | None =>
          match reg !! mkContentType (mime_type ct) None None with
          | Some p => Ok p
          | None => Raise NoProviderFound
          end
      end
  end.

(** Modelled from the spec: [ProviderBase.map_provider(accept_header)]. *)
Definition map_provider {P : Type} (reg : gmap ContentType P)
    (accept_header : string) : result P :=
  resolve reg (parse_content_type accept_header).

(** The registry once the three classes of the test file are defined. *)
Definition test_registry : gmap ContentType provider :=
  register (CONTENT_TYPE JsonProviderWithVendorAndVersion)
           JsonProviderWithVendorAndVersion
    (register (CONTENT_TYPE MoreDetailedJsonProvider) MoreDetailedJsonProvider
       (register (CONTENT_TYPE JsonProvider) JsonProvider ∅)).

End Provider.

(** ** Sample data for the statements below *)

(** A call of [CacheConfig] that ends with an exception instead of a
    [CacheConfigT] value. *)
Definition fails_at_construction (a : call_args) : Prop :=
  exists e, CacheConfig a = Raise e.

(** A handler that has set nothing yet: no header, status 200, no output. *)
Definition fresh_handler : RequestHandler :=
  {| _headers := ∅; _status_code := 200; _write_buffer := [] |}.

(** A handler method in the manner of [get]: it writes its positional
    arguments to the response, one chunk each, and returns how many keyword
    arguments it was given. *)
Definition write_args : method RequestHandler string nat :=
  fun self args kwargs =>
    ({| _headers := _headers self;
        _status_code := _status_code self;
        _write_buffer := _write_buffer self ++ args |},
     Ok (List.length kwargs)).

(** [cache(timedelta(minutes=10), public=True)] *)
Definition ten_minutes_public : call_args :=
  {| arg_max_age := Some (PyTimedelta {| days := 0; seconds := 600; microseconds := 0 |});
     arg_s_max_age := None; arg_public := Some true;
     arg_private := None; arg_no_cache := None; arg_no_store := None;
     arg_must_revalidate := None; arg_proxy_revalidate := None |}.

(** ** [compute_cache_header] on the heap

    [params] is a list object: [params = []] makes a new one, [append]
    changes it in place, and [join] reads what it holds at the end.  The
    heap maps the address of every list object to its items; it is passed
    from one call to the next, so that a call runs on the heap its
    predecessors left behind. *)

Definition loc : Type := positive.

Abbreviation heap := (gmap loc (list string)).

(** [[]]: a new, empty list at an address that is not in use. *)
Definition new_list (h : heap) : loc * heap :=
  let a := fresh (dom h) in (a, <[a := []]> h).

(** [l.append(x)] for the list at address [a]. *)
Definition list_append (a : loc) (x : string) (h : heap) : heap :=
  match h !! a with
  | Some items => <[a := append items x]> h
  | None => h
  end.

(** [if cond: l.append(x)] *)
Definition list_append_if (cond : bool) (a : loc) (x : string) (h : heap)
  : heap :=
  if cond then list_append a x h else h.

(** The items of the list at address [a]. *)
Definition list_items (a : loc) (h : heap) : list string :=
  match h !! a with
  | Some items => items
  | None => []
  end.

(** The body of [compute_cache_header], statement by statement, on the
    heap [h]: the outcome of the call and the heap it leaves. *)
Definition compute_cache_header_in (h : heap) (cache_config : CacheConfigT)
  : result string * heap :=
  let (params, h) := new_list h in
  match getattr_seconds (max_age cache_config) with
  | Raise e => (Raise e, h)
  | Ok secs =>
      let h := list_append params ("max-age=" ++ str_of_int secs) h in
      let after_s_max_age :=
        if truthy (s_max_age cache_config)
        then
          match getattr_seconds (s_max_age cache_config) with
          | Raise e => (Raise e, h)
          | Ok s_secs =>
              (Ok tt, list_append params ("s-max-age=" ++ str_of_int s_secs) h)
          end
        else (Ok tt, h) in
      match after_s_max_age with
      | (Raise e, h) => (Raise e, h)
      | (Ok _, h) =>
          let h := list_append_if (public cache_config) params "public" h in
          let h := list_append_if (private cache_config) params "private" h in
          let h := list_append_if (no_cache cache_config) params "no-cache" h in
          let h := list_append_if (no_store cache_config) params "no-store" h in
          let h := list_append_if (must_revalidate cache_config) params
                     "must-revalidate" h in
          let h := list_append_if (proxy_revalidate cache_config) params
                     "proxy-revalidate" h in
          (Ok (join ", " (list_items params h)), h)
      end
  end.

(** A heap with two lists on it, one of them a header's tokens. *)
Definition busy_heap : heap :=
  <[2%positive := ["max-age=1"; "public"]]> (<[1%positive := ["x"]]> ∅).

(** [CacheConfig(timedelta(minutes=10), s_max_age=timedelta(days=1))] *)
Definition ten_minutes_shared_a_day : call_args :=
  {| arg_max_age := Some (PyTimedelta {| days := 0; seconds := 600; microseconds := 0 |});
     arg_s_max_age := Some (PyTimedelta {| days := 1; seconds := 0; microseconds := 0 |});
     arg_public := None; arg_private := None; arg_no_cache := None;
     arg_no_store := None; arg_must_revalidate := None;
     arg_proxy_revalidate := None |}.

(** ** Measures of a header *)

(** The characters the directives are written in: lower-case letters,
    digits, the hyphen and the equals sign, with the comma and the space of
    the separator. *)
Definition header_char (c : ascii) : bool :=
  existsb (Ascii.eqb c)
    (list_ascii_of_string "abcdefghijklmnopqrstuvwxyz0123456789-=, ").

(** Every character of [s] passes the test [p]. *)
Fixpoint all_chars (p : ascii -> bool) (s : string) : bool :=
  match s with
  | EmptyString => true
  | String c rest => p c && all_chars p rest
  end.

(** How many of the seven [if] statements of [compute_cache_header] have a
    true condition. *)
Definition enabled_directives (c : CacheConfigT) : nat :=
  (Nat.b2n (truthy (s_max_age c)) + Nat.b2n (public c) + Nat.b2n (private c)
   + Nat.b2n (no_cache c) + Nat.b2n (no_store c)
   + Nat.b2n (must_revalidate c) + Nat.b2n (proxy_revalidate c))%nat.

(** [timedelta(days=1, minutes=10)] *)
Definition a_day_and_ten_minutes : timedelta :=
  {| days := 1; seconds := 600; microseconds := 0 |}.

(** [timedelta(minutes=10)] *)
Definition ten_minutes : timedelta :=
  {| days := 0; seconds := 600; microseconds := 0 |}.

(** [CacheConfig(timedelta(days=1, minutes=10), s_max_age=timedelta(days=1),
                 private=True, no_store=True)] *)
Definition sample_config : CacheConfigT :=
  {| max_age := PyTimedelta a_day_and_ten_minutes;
     s_max_age := PyTimedelta {| days := 1; seconds := 0; microseconds := 0 |};
     public := false; private := true; no_cache := false; no_store := true;
     must_revalidate := true; proxy_revalidate := false |}.

(** [CacheConfig(timedelta(minutes=10), s_max_age=timedelta(days=2),
                 private=True, no_store=True)]: [sample_config] with other
    days. *)
Definition sample_config_other_days : CacheConfigT :=
  {| max_age := PyTimedelta ten_minutes;
     s_max_age := PyTimedelta {| days := 2; seconds := 0; microseconds := 0 |};
     public := false; private := true; no_cache := false; no_store := true;
     must_revalidate := true; proxy_revalidate := false |}.

(** [cache(None)] *)
Definition null_max_age_args : call_args := only_max_age PyNone.

(** [cache(timedelta(days=1, minutes=10), private=True)] *)
Definition a_day_private : call_args :=
  {| arg_max_age := Some (PyTimedelta a_day_and_ten_minutes);
     arg_s_max_age := None; arg_public := None;
     arg_private := Some true; arg_no_cache := None; arg_no_store := None;
     arg_must_revalidate := None; arg_proxy_revalidate := None |}.

(** * Properties *)

(** ** Rendering and splitting *)

Lemma comma_free_app (s t : string) :
  comma_free (s ++ t) = comma_free s && comma_free t.
Proof.
  induction s as [|c s IH]; simpl.
  - reflexivity.
  - rewrite IH. apply andb_assoc.
Qed.

Lemma comma_free_uint (u : Decimal.uint) :
  comma_free (NilEmpty.string_of_uint u) = true.
Proof. induction u as [|u IH|u IH|u IH|u IH|u IH|u IH|u IH|u IH|u IH|u IH]; simpl; auto. Qed.

Lemma comma_free_str_of_int (n : Z) : comma_free (str_of_int n) = true.
Proof.
  unfold str_of_int.
  destruct (Z.to_int n) as [u|u]; simpl; apply comma_free_uint.
Qed.

Lemma comma_free_rendered_seconds (v : pyval) :
  comma_free (rendered_seconds v) = true.
Proof. destruct v; simpl; [reflexivity | apply comma_free_str_of_int]. Qed.

(** A character other than a comma stays in the piece that is being read. *)
Lemma split_cons_other (c : ascii) (rest : string) :
  Ascii.eqb c "," = false ->
  split (String c rest) = push_char c (split rest).
Proof.
  intros Hc. destruct rest as [|d rest].
  - reflexivity.
  - cbn [split]. rewrite Hc. reflexivity.
Qed.

Lemma split_comma_free (t : string) : comma_free t = true -> split t = [t].
Proof.
  induction t as [|c t IH]; intros Ht.
  - reflexivity.
  - simpl in Ht. apply andb_true_iff in Ht as [Hc Ht].
    apply negb_true_iff in Hc.
    rewrite split_cons_other by exact Hc.
    rewrite IH by exact Ht. reflexivity.
Qed.

Lemma split_token_sep (t s : string) :
  comma_free t = true -> split (t ++ ", " ++ s) = t :: split s.
Proof.
  induction t as [|c t IH]; intros Ht.
  - reflexivity.
  - simpl in Ht. apply andb_true_iff in Ht as [Hc Ht].
    apply negb_true_iff in Hc.
    change (String c t ++ ", " ++ s) with (String c (t ++ ", " ++ s)).
    rewrite split_cons_other by exact Hc.
    rewrite IH by exact Ht. reflexivity.
Qed.

(** Splitting undoes joining when no token holds a comma. *)
Lemma split_join (l : list string) :
  l <> [] ->
  Forall (fun t => comma_free t = true) l ->
  split (join ", " l) = l.
Proof.
  intros Hne Hall. induction Hall as [|t l Ht Hl IH].
  - contradiction.
  - destruct l as [|u l].
    + simpl. apply split_comma_free, Ht.
    + change (join ", " (t :: u :: l)) with (t ++ ", " ++ join ", " (u :: l)).
      rewrite split_token_sep by exact Ht.
      rewrite IH by discriminate. reflexivity.
Qed.

(** ** The body of [compute_cache_header] against the directive table *)

Lemma directive_table_comma_free (c : CacheConfigT) :
  Forall (fun d => comma_free (snd d) = true) (directive_table c).
Proof.
  unfold directive_table.
  repeat constructor; simpl; try reflexivity;
    apply comma_free_rendered_seconds.
Qed.

Lemma spec_tokens_comma_free (c : CacheConfigT) :
  Forall (fun t => comma_free t = true) (spec_tokens c).
Proof.
  unfold spec_tokens. apply Forall_fmap, Forall_forall.
  intros d Hd. apply list_elem_of_filter in Hd as [_ Hd].
  pose proof (directive_table_comma_free c) as Hall.
  rewrite Forall_forall in Hall. apply Hall, Hd.
Qed.

Lemma spec_tokens_head (c : CacheConfigT) :
  exists rest,
    spec_tokens c = ("max-age=" ++ rendered_seconds (max_age c)) :: rest.
Proof. unfold spec_tokens, directive_table. simpl. eexists. reflexivity. Qed.

Lemma spec_tokens_nonempty (c : CacheConfigT) : spec_tokens c <> [].
Proof. destruct (spec_tokens_head c) as [rest ->]. discriminate. Qed.

(** With a duration as [max_age] the list that the body builds is the
    directive table with the directives that are off left out. *)
Lemma compute_params_spec (c : CacheConfigT) (td : timedelta) :
  max_age c = PyTimedelta td -> compute_params c = Ok (spec_tokens c).
Proof.
  destruct c as [m sm pu pr nc ns mr prx]. simpl. intros ->.
  unfold compute_params, spec_tokens, directive_table. simpl.
  destruct sm as [|td']; simpl.
  - destruct pu, pr, nc, ns, mr, prx; reflexivity.
  - destruct (Timedelta.truthy td'), pu, pr, nc, ns, mr, prx; reflexivity.
Qed.

Lemma compute_cache_header_spec (c : CacheConfigT) (td : timedelta) :
  max_age c = PyTimedelta td ->
  compute_cache_header c = Ok (join ", " (spec_tokens c)).
Proof.
  intros Hm. unfold compute_cache_header.
  rewrite (compute_params_spec c td Hm). reflexivity.
Qed.

Lemma tokens_join_spec_tokens (c : CacheConfigT) :
  tokens (join ", " (spec_tokens c)) = spec_tokens c.
Proof.
  unfold tokens. apply split_join.
  - apply spec_tokens_nonempty.
  - apply spec_tokens_comma_free.
Qed.

(** The tokens of the table, one case for each directive. *)
Lemma elem_of_spec_tokens (c : CacheConfigT) (t : string) :
  t ∈ spec_tokens c <->
  (t = "max-age=" ++ rendered_seconds (max_age c))
  \/ (truthy (s_max_age c) = true
      /\ t = "s-max-age=" ++ rendered_seconds (s_max_age c))
  \/ (public c = true /\ t = "public")
  \/ (private c = true /\ t = "private")
  \/ (no_cache c = true /\ t = "no-cache")
  \/ (no_store c = true /\ t = "no-store")
  \/ (must_revalidate c = true /\ t = "must-revalidate")
  \/ (proxy_revalidate c = true /\ t = "proxy-revalidate").
Proof.
  unfold spec_tokens. rewrite list_elem_of_fmap. split.
  - intros [[b t'] [-> Hd]]. apply list_elem_of_filter in Hd as [Hb Hd].
    simpl in Hb. unfold directive_table in Hd.
    rewrite !elem_of_cons, elem_of_nil in Hd. simpl.
    destruct Hd as [Hd|[Hd|[Hd|[Hd|[Hd|[Hd|[Hd|[Hd|[]]]]]]]]];
      injection Hd as -> ->; auto 10.
  - intros Hcases.
    assert (exists b, b = true /\ (b, t) ∈ directive_table c) as (b & Hb & Hd).
    { unfold directive_table.
      destruct Hcases as [->|[[E ->]|[[E ->]|[[E ->]|[[E ->]|[[E ->]|[[E ->]|[E ->]]]]]]]];
        exists true; (split; [reflexivity|]); rewrite <- ?E;
        rewrite !elem_of_cons; auto 10. }
    exists (b, t). split; [reflexivity|].
    apply list_elem_of_filter. split; [exact Hb | exact Hd].
Qed.

(** [bool(td)] is false for the zero duration only. *)
Lemma timedelta_truthy_spec (td : timedelta) :
  Timedelta.truthy td = true <-> td <> Timedelta.zero.
Proof.
  destruct td as [d s u]. unfold Timedelta.truthy, Timedelta.zero. simpl.
  split.
  - intros Ht [= -> -> ->]. discriminate Ht.
  - intros Hne.
    destruct (Z.eqb_spec d 0) as [->|]; [|reflexivity].
    destruct (Z.eqb_spec s 0) as [->|]; [|reflexivity].
    destruct (Z.eqb_spec u 0) as [->|]; [|reflexivity].
    contradiction Hne. reflexivity.
Qed.

Lemma truthy_spec (v : pyval) :
  truthy v = true <-> v <> PyNone /\ v <> PyTimedelta Timedelta.zero.
Proof.
  destruct v as [|td]; simpl.
  - split; [discriminate | intros [Hn _]; contradiction Hn; reflexivity].
  - rewrite timedelta_truthy_spec. split.
    + intros Hne. split; [discriminate | intros [= ->]; contradiction Hne; reflexivity].
    + intros [_ Hne] ->. contradiction Hne. reflexivity.
Qed.

(** Within a day the attribute [.seconds] is the total number of seconds. *)
Lemma seconds_is_total_within_a_day (td : timedelta) :
  days td = 0 -> seconds td = total_seconds td.
Proof. unfold total_seconds. intros ->. lia. Qed.

(** The constructor keeps the invariant of the representation. *)
Lemma new_normalised (d s us ms mins hours weeks : Z) (td : timedelta) :
  Timedelta.new d s us ms mins hours weeks = Ok td -> normalised td.
Proof.
  unfold Timedelta.new, normalised.
  destruct (Z.gtb_spec
    (Z.abs ((((((weeks * 7 + d) * 24 + hours) * 60 + mins) * 60 + s)
               * us_per_second + ms * 1000 + us) / us_per_second
            / seconds_per_day)) max_days) as [Hgt|Hle];
    [discriminate|].
  intros [= <-]. simpl. unfold seconds_per_day, us_per_second in *.
  repeat split; try (apply Z.mod_pos_bound; lia); lia.
Qed.

(** ** The header *)

Example header_ten_minutes :
  (td ← Timedelta.new 0 0 0 0 10 0 0;
   cfg ← CacheConfig (only_max_age (PyTimedelta td));
   compute_cache_header cfg)
  = Ok "max-age=600, must-revalidate".
Proof. reflexivity. Qed.

Example split_header :
  split "max-age=600, public, must-revalidate"
  = ["max-age=600"; "public"; "must-revalidate"].
Proof. reflexivity. Qed.

(** C1: the specification asks for the total seconds of [max_age], so that two days
    give [max-age=172800].  The code formats the attribute [.seconds], the
    seconds within the last day: for [timedelta(days=2)], whose total is
    172800 seconds, the header is [max-age=0, must-revalidate]. *)
Theorem C1_two_days_render_as_zero :
  exists td cfg,
    Timedelta.new 2 0 0 0 0 0 0 = Ok td /\
    total_seconds td = 172800 /\
    CacheConfig (only_max_age (PyTimedelta td)) = Ok cfg /\
    compute_cache_header cfg = Ok "max-age=0, must-revalidate".
Proof.
  exists {| days := 2; seconds := 0; microseconds := 0 |}.
  eexists. repeat split.
Qed.

(** C2: for a configuration whose [max_age] is a duration, the header is the
    directive table in its fixed order (max-age, s-max-age, public, private,
    no-cache, no-store, must-revalidate, proxy-revalidate) with the
    directives whose condition is false left out, joined by a comma and a
    space; splitting the header at the separator gives these tokens back. *)
Theorem C2_tokens_in_fixed_order (c : CacheConfigT) (td : timedelta) :
  max_age c = PyTimedelta td ->
  exists header,
    compute_cache_header c = Ok header /\
    header = join ", " (spec_tokens c) /\
    tokens header = spec_tokens c.
Proof.
  intros Hm. exists (join ", " (spec_tokens c)).
  split; [|split].
  - apply (compute_cache_header_spec c td Hm).
  - reflexivity.
  - apply tokens_join_spec_tokens.
Qed.

Lemma C2_tokens_in_fixed_order_witness :
  let c := {| max_age := PyTimedelta {| days := 0; seconds := 600; microseconds := 0 |};
              s_max_age := PyNone; public := true; private := false;
              no_cache := false; no_store := false; must_revalidate := true;
              proxy_revalidate := true |} in
  exists header,
    compute_cache_header c = Ok header /\
    header = "max-age=600, public, must-revalidate, proxy-revalidate" /\
    tokens header = ["max-age=600"; "public"; "must-revalidate"; "proxy-revalidate"].
Proof.
  intros c.
  destruct (C2_tokens_in_fixed_order c
              {| days := 0; seconds := 600; microseconds := 0 |} eq_refl)
    as (header & Hh & Hj & Ht).
  exists header. split; [exact Hh|]. split; [exact Hj | exact Ht].
Defined.

(** Built from [max_age] alone, every other argument left at its default,
    the configuration gives [max-age=<n>, must-revalidate], where [<n>] is
    the rendering of the attribute [max_age.seconds]. *)
Theorem only_max_age_header (td : timedelta) :
  (cfg ← CacheConfig (only_max_age (PyTimedelta td));
   compute_cache_header cfg)
  = Ok ("max-age=" ++ str_of_int (seconds td) ++ ", must-revalidate").
Proof.
  change (CacheConfig (only_max_age (PyTimedelta td)))
    with (Ok {| max_age := PyTimedelta td; s_max_age := PyNone;
                public := false; private := false; no_cache := false;
                no_store := false; must_revalidate := true;
                proxy_revalidate := false |}).
  cbn [mbind result_bind].
  erewrite compute_cache_header_spec by reflexivity.
  reflexivity.
Qed.

(** C3: with [max_age] alone the header should be
    [max-age=<N>, must-revalidate] with [<N>] the seconds of the duration.
    For [timedelta(days=2)], a duration of 172800 seconds, the defaults are
    applied as they should, but the header is [max-age=0, must-revalidate]:
    it is not the header with the total. *)
Theorem C3_only_max_age_two_days :
  exists td,
    Timedelta.new 2 0 0 0 0 0 0 = Ok td /\
    total_seconds td = 172800 /\
    (cfg ← CacheConfig (only_max_age (PyTimedelta td));
     compute_cache_header cfg)
    = Ok "max-age=0, must-revalidate" /\
    (cfg ← CacheConfig (only_max_age (PyTimedelta td));
     compute_cache_header cfg)
    <> Ok ("max-age=" ++ str_of_int (total_seconds td) ++ ", must-revalidate").
Proof.
  exists {| days := 2; seconds := 0; microseconds := 0 |}.
  split; [reflexivity|]. split; [reflexivity|]. split; [reflexivity|].
  intros Heq. vm_compute in Heq. discriminate Heq.
Qed.

(** The only token that carries [s-max-age] is the one of the table. *)
Lemma s_max_age_token_inv (c : CacheConfigT) (t : string) :
  t ∈ spec_tokens c ->
  is_directive "s-max-age" t = true ->
  truthy (s_max_age c) = true
  /\ t = "s-max-age=" ++ rendered_seconds (s_max_age c).
Proof.
  intros Hin Hdir. apply elem_of_spec_tokens in Hin.
  destruct Hin as [->|[[E ->]|[[E ->]|[[E ->]|[[E ->]|[[E ->]|[[E ->]|[E ->]]]]]]]];
    try (simpl in Hdir; discriminate Hdir).
  split; [exact E | reflexivity].
Qed.

(** For a configuration whose [max_age] is a duration, the header has an
    [s-max-age] token exactly when [s_max_age] is neither [None] nor the zero
    duration. *)
Theorem s_max_age_token_iff_set (c : CacheConfigT) (td : timedelta) :
  max_age c = PyTimedelta td ->
  exists header,
    compute_cache_header c = Ok header /\
    ((exists t, t ∈ tokens header /\ is_directive "s-max-age" t = true)
     <-> s_max_age c <> PyNone /\ s_max_age c <> PyTimedelta Timedelta.zero).
Proof.
  intros Hm. exists (join ", " (spec_tokens c)).
  rewrite tokens_join_spec_tokens.
  split; [apply (compute_cache_header_spec c td Hm)|].
  rewrite <- truthy_spec. split.
  - intros (t & Hin & Hdir).
    apply (s_max_age_token_inv c t Hin Hdir).
  - intros Htruthy.
    exists ("s-max-age=" ++ rendered_seconds (s_max_age c)).
    split; [|reflexivity].
    apply elem_of_spec_tokens. right. left. split; [exact Htruthy | reflexivity].
Qed.

Lemma s_max_age_token_iff_set_witness :
  exists header,
    compute_cache_header sample_config = Ok header /\
    ((exists t, t ∈ tokens header /\ is_directive "s-max-age" t = true)
     <-> s_max_age sample_config <> PyNone
         /\ s_max_age sample_config <> PyTimedelta Timedelta.zero).
Proof.
  exact (s_max_age_token_iff_set sample_config a_day_and_ten_minutes eq_refl).
Defined.

(** C4: the [s-max-age] token should hold the seconds of [s_max_age].  For
    [s_max_age = timedelta(days=1)], a duration of 86400 seconds, the token
    is there, as it should be for a duration that is not zero, but it reads
    [s-max-age=0]. *)
Theorem C4_one_day_s_max_age_renders_as_zero :
  exists std cfg header,
    Timedelta.new 1 0 0 0 0 0 0 = Ok std /\
    total_seconds std = 86400 /\
    arg_s_max_age ten_minutes_shared_a_day = Some (PyTimedelta std) /\
    CacheConfig ten_minutes_shared_a_day = Ok cfg /\
    compute_cache_header cfg = Ok header /\
    header = "max-age=600, s-max-age=0, must-revalidate" /\
    "s-max-age=0" ∈ tokens header /\
    ("s-max-age=" ++ str_of_int (total_seconds std)) ∉ tokens header.
Proof.
  exists {| days := 1; seconds := 0; microseconds := 0 |}.
  eexists. exists "max-age=600, s-max-age=0, must-revalidate".
  split; [reflexivity|]. split; [reflexivity|]. split; [reflexivity|].
  split; [reflexivity|]. split; [reflexivity|]. split; [reflexivity|].
  change (tokens "max-age=600, s-max-age=0, must-revalidate")
    with ["max-age=600"; "s-max-age=0"; "must-revalidate"].
  split.
  - rewrite !elem_of_cons. right. left. reflexivity.
  - rewrite !not_elem_of_cons. repeat split;
      try apply not_elem_of_nil; intros Heq; vm_compute in Heq;
      discriminate Heq.
Qed.

(** C5: for a configuration whose [max_age] is a duration, the header has
    the token [must-revalidate] exactly when [must_revalidate] is true: it is
    there by default and gone when the flag is false. *)
Theorem C5_must_revalidate_token (c : CacheConfigT) (td : timedelta) :
  max_age c = PyTimedelta td ->
  exists header,
    compute_cache_header c = Ok header /\
    ("must-revalidate" ∈ tokens header <-> must_revalidate c = true).
Proof.
  intros Hm. exists (join ", " (spec_tokens c)).
  rewrite tokens_join_spec_tokens.
  split; [apply (compute_cache_header_spec c td Hm)|].
  rewrite elem_of_spec_tokens. split.
  - intros [E|[[_ E]|[[_ E]|[[_ E]|[[_ E]|[[_ E]|[[Hmr _]|[_ E]]]]]]]];
      try (simpl in E; discriminate E).
    exact Hmr.
  - intros Hmr. do 6 right. left. split; [exact Hmr | reflexivity].
Qed.

Lemma C5_must_revalidate_token_witness :
  let td := {| days := 0; seconds := 600; microseconds := 0 |} in
  let c := {| max_age := PyTimedelta td; s_max_age := PyNone;
              public := true; private := false; no_cache := false;
              no_store := false; must_revalidate := false;
              proxy_revalidate := true |} in
  exists header,
    compute_cache_header c = Ok header /\
    ("must-revalidate" ∈ tokens header <-> must_revalidate c = true).
Proof.
  intros td c. exact (C5_must_revalidate_token c td eq_refl).
Defined.

(** *** Repeated calls *)

Lemma list_append_lookup (a : loc) (x : string) (h : heap)
    (items : list string) :
  h !! a = Some items -> list_append a x h !! a = Some (append items x).
Proof.
  intros Hl. unfold list_append. rewrite Hl. apply lookup_insert_eq.
Qed.

Lemma list_append_if_lookup (cond : bool) (a : loc) (x : string) (h : heap)
    (items : list string) :
  h !! a = Some items ->
  list_append_if cond a x h !! a = Some (append_if cond items x).
Proof.
  intros Hl. destruct cond; simpl; [|exact Hl].
  apply list_append_lookup, Hl.
Qed.

Lemma list_append_other (a b : loc) (x : string) (h : heap) :
  a <> b -> list_append a x h !! b = h !! b.
Proof.
  intros Hne. unfold list_append.
  destruct (h !! a); [apply lookup_insert_ne, Hne | reflexivity].
Qed.

Lemma list_append_if_other (cond : bool) (a b : loc) (x : string) (h : heap) :
  a <> b -> list_append_if cond a x h !! b = h !! b.
Proof.
  intros Hne. destruct cond; simpl; [apply list_append_other, Hne | reflexivity].
Qed.

Lemma list_items_lookup (a : loc) (h : heap) (items : list string) :
  h !! a = Some items -> list_items a h = items.
Proof. intros Hl. unfold list_items. rewrite Hl. reflexivity. Qed.

(** The new list is empty, whatever the heap held before. *)
Lemma new_list_lookup (h : heap) :
  snd (new_list h) !! fst (new_list h) = Some [].
Proof. unfold new_list. simpl. apply lookup_insert_eq. Qed.

(** The new list is no list that was there before. *)
Lemma new_list_fresh (h : heap) (b : loc) :
  is_Some (h !! b) -> fst (new_list h) <> b.
Proof.
  intros Hb Heq. unfold new_list in Heq. simpl in Heq.
  apply elem_of_dom in Hb. rewrite <- Heq in Hb.
  exact (is_fresh (dom h) Hb).
Qed.

(** On any heap the call comes out as [compute_cache_header] says: what the
    heap holds has no part in the outcome. *)
Lemma compute_cache_header_in_outcome (h : heap) (c : CacheConfigT) :
  fst (compute_cache_header_in h c) = compute_cache_header c.
Proof.
  unfold compute_cache_header_in.
  pose proof (new_list_lookup h) as Hnew.
  destruct (new_list h) as [params h0]. simpl in Hnew.
  destruct c as [m sm pu pr nc ns mr prx]. simpl.
  unfold compute_cache_header, compute_params. simpl.
  destruct m as [|td]; simpl; [reflexivity|].
  pose proof (list_append_lookup params ("max-age=" ++ str_of_int (seconds td))
                h0 [] Hnew) as H1.
  assert (forall h1 items,
            h1 !! params = Some items ->
            list_items params
              (list_append_if prx params "proxy-revalidate"
                 (list_append_if mr params "must-revalidate"
                    (list_append_if ns params "no-store"
                       (list_append_if nc params "no-cache"
                          (list_append_if pr params "private"
                             (list_append_if pu params "public" h1))))))
            = append_if prx
                (append_if mr
                   (append_if ns
                      (append_if nc
                         (append_if pr (append_if pu items "public") "private")
                         "no-cache") "no-store") "must-revalidate")
                "proxy-revalidate") as Hflags.
  { intros h1 items Hl. apply list_items_lookup.
    do 6 apply list_append_if_lookup. exact Hl. }
  destruct sm as [|std]; simpl.
  - rewrite (Hflags _ _ H1). reflexivity.
  - destruct (Timedelta.truthy std); simpl.
    + rewrite (Hflags _ _ (list_append_lookup params _ _ _ H1)). reflexivity.
    + rewrite (Hflags _ _ H1). reflexivity.
Qed.

(** C9: a call makes its own list [params] and reads nothing else, so the
    outcome does not depend on the heap it runs on: a second call, on the
    heap the first one left, gives the same header (or the same exception),
    and so do two calls on any two heaps. *)
Theorem C9_repeated_builds_agree (c : CacheConfigT) (h : heap) :
  (let first := compute_cache_header_in h c in
   let second := compute_cache_header_in (snd first) c in
   fst second = fst first)
  /\ (forall h' : heap,
        fst (compute_cache_header_in h' c) = fst (compute_cache_header_in h c)).
Proof.
  split.
  - cbv zeta. rewrite !compute_cache_header_in_outcome. reflexivity.
  - intros h'. rewrite !compute_cache_header_in_outcome. reflexivity.
Qed.

Example second_build_on_a_busy_heap :
  let first := compute_cache_header_in busy_heap sample_config in
  let second := compute_cache_header_in (snd first) sample_config in
  fst first = Ok "max-age=600, s-max-age=0, private, no-store, must-revalidate"
  /\ fst second = fst first
  /\ snd first !! 3%positive
     = Some ["max-age=600"; "s-max-age=0"; "private"; "no-store"; "must-revalidate"]
  /\ snd second !! 2%positive = Some ["max-age=1"; "public"].
Proof. vm_compute. repeat split. Qed.

(** C10: for a configuration whose [max_age] is a duration, the zero
    duration included, the header is not empty and its first token is the
    [max-age] token; a zero [s_max_age], by contrast, leaves no [s-max-age]
    token behind. *)
Theorem C10_max_age_comes_first (c : CacheConfigT) (td : timedelta) :
  max_age c = PyTimedelta td ->
  exists header rest,
    compute_cache_header c = Ok header /\
    header <> "" /\
    tokens header = ("max-age=" ++ str_of_int (seconds td)) :: rest /\
    (s_max_age c = PyTimedelta Timedelta.zero ->
     forall t, t ∈ tokens header -> is_directive "s-max-age" t = false).
Proof.
  intros Hm. destruct (spec_tokens_head c) as [rest Hrest].
  exists (join ", " (spec_tokens c)), rest.
  rewrite tokens_join_spec_tokens.
  split; [apply (compute_cache_header_spec c td Hm)|].
  split; [|split].
  - rewrite Hrest. destruct rest; simpl; discriminate.
  - rewrite Hrest, Hm. reflexivity.
  - intros Hzero t Hin.
    destruct (is_directive "s-max-age" t) eqn:Hdir; [|reflexivity].
    destruct (s_max_age_token_inv c t Hin Hdir) as [Htruthy _].
    rewrite Hzero in Htruthy. discriminate Htruthy.
Qed.

Lemma C10_max_age_comes_first_witness :
  let c := {| max_age := PyTimedelta Timedelta.zero;
              s_max_age := PyTimedelta Timedelta.zero;
              public := false; private := false; no_cache := false;
              no_store := false; must_revalidate := true;
              proxy_revalidate := false |} in
  exists header rest,
    compute_cache_header c = Ok header /\
    header <> "" /\
    tokens header = "max-age=0" :: rest /\
    (s_max_age c = PyTimedelta Timedelta.zero ->
     forall t, t ∈ tokens header -> is_directive "s-max-age" t = false).
Proof.
  intros c. exact (C10_max_age_comes_first c Timedelta.zero eq_refl).
Defined.

(** ** The decorator *)

(** [cache] and [CacheConfig] bind their arguments alike. *)
Lemma cache_binds_like_CacheConfig {H V R : Type} `{Handler H}
    (a : call_args) (m : pyval) :
  arg_max_age a = Some m ->
  exists cfg,
    CacheConfig a = Ok cfg /\
    cache (V := V) (R := R) a
    = Ok (_func (max_age cfg) (s_max_age cfg) (public cfg) (private cfg)
            (no_cache cfg) (no_store cfg) (must_revalidate cfg)
            (proxy_revalidate cfg)).
Proof.
  intros Hm. unfold CacheConfig, cache. rewrite Hm.
  eexists. split; reflexivity.
Qed.

(** Inside [_func] the configuration is the one its parameters spell out. *)
Lemma _func_unfold {H V R : Type} `{Handler H} (cfg : CacheConfigT)
    (fn : method H V R) (self : H) (args : list V) (kwargs : list (string * V)) :
  _func (max_age cfg) (s_max_age cfg) (public cfg) (private cfg)
    (no_cache cfg) (no_store cfg) (must_revalidate cfg) (proxy_revalidate cfg)
    fn self args kwargs
  = match compute_cache_header cfg with
    | Raise e => (self, Raise e)
    | Ok header => fn (set_header "Cache-Control" header self) args kwargs
    end.
Proof. destruct cfg. reflexivity. Qed.



(** On the framework's handler the decorated method leaves every header but
    [Cache-Control] as it was. *)
Lemma RequestHandler_set_header_lookup (name value other : string)
    (self : RequestHandler) :
  _headers (set_header name value self) !! other
  = if decide (name = other) then Some value else _headers self !! other.
Proof. simpl. apply lookup_insert. Qed.

Example decorated_write_args :
  (wrapper ← cache ten_minutes_public;
   Ok (wrapper write_args fresh_handler ["ok"] [("pretty", "1")]))
  = Ok ({| _headers := {[ "Cache-Control" := "max-age=600, public, must-revalidate" ]};
           _status_code := 200;
           _write_buffer := ["ok"] |},
        Ok 1%nat).
Proof. reflexivity. Qed.

(** A decorator that is given [None] as [max_age] is built without
    complaint; the exception comes when the decorated method runs, before
    the header is set and before [fn] is called. *)
Lemma cache_null_max_age_raises_on_call {H V R : Type} `{Handler H}
    (a : call_args) (fn : method H V R)
    (self : H) (args : list V) (kwargs : list (string * V)) :
  arg_max_age a = Some PyNone ->
  exists wrapper,
    cache a = Ok wrapper /\
    wrapper fn self args kwargs = (self, Raise AttributeError).
Proof.
  intros Hm. unfold cache. rewrite Hm. eexists. split; reflexivity.
Qed.

(** ** A missing [max_age] *)

(** C7, as it is stated, does not hold: a call that passes [None] as
    [max_age] returns a [CacheConfigT] value; nothing is raised when the
    value is made. *)
Lemma C7_null_max_age_is_constructed :
  arg_max_age (only_max_age PyNone) = Some PyNone /\
  ~ fails_at_construction (only_max_age PyNone).
Proof.
  split; [reflexivity|].
  intros [e He]. discriminate He.
Qed.

(** C7, amended: no header comes out of a missing [max_age], but the failure
    is at construction only when the argument is left out ([TypeError]); with
    [None] the value is made and [compute_cache_header] raises
    [AttributeError] on it; with a duration both steps succeed. *)
Theorem C7_missing_max_age (a : call_args) :
  match arg_max_age a with
  | None => CacheConfig a = Raise TypeError
  | Some PyNone =>
      exists cfg,
        CacheConfig a = Ok cfg /\
        compute_cache_header cfg = Raise AttributeError
  | Some (PyTimedelta _) =>
      exists cfg header,
        CacheConfig a = Ok cfg /\ compute_cache_header cfg = Ok header
  end.
Proof.
  destruct (arg_max_age a) as [[|td]|] eqn:Hm.
  - unfold CacheConfig. rewrite Hm. eexists. split; reflexivity.
  - unfold CacheConfig. rewrite Hm. eexists. eexists.
    split; [reflexivity|].
    erewrite compute_cache_header_spec by reflexivity. reflexivity.
  - unfold CacheConfig. rewrite Hm. reflexivity.
Qed.

Example no_args_raise_TypeError : CacheConfig no_args = Raise TypeError.
Proof. reflexivity. Qed.

Example null_max_age_raises_late :
  (cfg ← CacheConfig (only_max_age PyNone); compute_cache_header cfg)
  = Raise AttributeError.
Proof. reflexivity. Qed.

(** ** The provider lookup *)

Module ProviderFacts.
Import Provider.

(** A lookup answers with a provider that is registered for the type asked
    for, under the vendor asked for or under no vendor at all. *)
Lemma resolve_same_vendor_or_bare {P : Type}
    (reg : gmap ContentType P) (ct : ContentType) (p : P) :
  resolve reg ct = Ok p ->
  exists ct',
    reg !! ct' = Some p /\
    mime_type ct' = mime_type ct /\
    (vendor ct' = vendor ct \/ vendor ct' = None).
Proof.
  unfold resolve. intros Hres.
  destruct (reg !! ct) as [p1|] eqn:H1.
  { injection Hres as <-. exists ct. auto. }
  destruct (reg !! mkContentType (mime_type ct) (vendor ct) None)
    as [p2|] eqn:H2.
  { injection Hres as <-. eexists. split; [exact H2|]. simpl. auto. }
  destruct (reg !! mkContentType (mime_type ct) None None) as [p3|] eqn:H3.
  { injection Hres as <-. eexists. split; [exact H3|]. simpl. auto. }
  discriminate Hres.
Qed.

(** In the registry of the test file every class sits under its own
    [CONTENT_TYPE]. *)
Lemma test_registry_lookup (ct : ContentType) (p : provider) :
  test_registry !! ct = Some p -> ct = CONTENT_TYPE p.
Proof.
  unfold test_registry, register. intros Hl.
  apply lookup_insert_Some in Hl as [[<- <-]|[_ Hl]]; [reflexivity|].
  apply lookup_insert_Some in Hl as [[<- <-]|[_ Hl]]; [reflexivity|].
  apply lookup_insert_Some in Hl as [[<- <-]|[_ Hl]]; [reflexivity|].
  rewrite lookup_empty in Hl. discriminate Hl.
Qed.

(** C8: with [JsonProvider] registered for [application/json],
    [MoreDetailedJsonProvider] for the vendor [supercell] and
    [JsonProviderWithVendorAndVersion] for that vendor at version 1.0,
    [map_provider] answers each of the three MIME type strings with the
    class registered for it, and a string that names another vendor gets
    the default provider of its bare type or no provider, never one of the
    classes of [supercell]. *)
Theorem C8_map_provider :
  map_provider test_registry "application/json" = Ok JsonProvider /\
  map_provider test_registry "application/vnd.supercell+json"
  = Ok MoreDetailedJsonProvider /\
  map_provider test_registry "application/vnd.supercell-v1.0+json"
  = Ok JsonProviderWithVendorAndVersion /\
  (forall (s v : string),
     vendor (parse_content_type s) = Some v -> v <> "supercell" ->
     map_provider test_registry s = Ok JsonProvider
     \/ map_provider test_registry s = Raise NoProviderFound).
Proof.
  split; [vm_compute; reflexivity|].
  split; [vm_compute; reflexivity|].
  split; [vm_compute; reflexivity|].
  intros s v Hv Hne. unfold map_provider.
  destruct (resolve test_registry (parse_content_type s)) as [p|e] eqn:Hres.
  - left.
    apply resolve_same_vendor_or_bare in Hres as (ct' & Hl & _ & Hvendor).
    apply test_registry_lookup in Hl. subst ct'. rewrite Hv in Hvendor.
    destruct p; simpl in Hvendor; [reflexivity| |];
      destruct Hvendor as [Hsame|Hbare];
      try discriminate Hbare; injection Hsame as <-; contradiction Hne;
      reflexivity.
  - right. unfold resolve in Hres.
    repeat match type of Hres with
           | match ?x with _ => _ end = _ => destruct x; try discriminate Hres
           end.
    symmetry. exact Hres.
Qed.

Example other_vendor_falls_back :
  map_provider test_registry "application/vnd.acme-v1.0+json" = Ok JsonProvider.
Proof. vm_compute. reflexivity. Qed.

Example other_vendor_other_type :
  map_provider test_registry "text/vnd.acme+html" = Raise NoProviderFound.
Proof. vm_compute. reflexivity. Qed.

End ProviderFacts.

(** * Further properties of the header *)

(** ** Which seconds the header shows *)

Lemma normalised_seconds_mod (td : timedelta) :
  normalised td -> seconds td = total_seconds td mod seconds_per_day.
Proof.
  unfold normalised, total_seconds. intros (_ & Hs & _).
  rewrite Z.add_comm, Z_mod_plus_full.
  symmetry. apply Z.mod_small. exact Hs.
Qed.

Lemma normalised_under_a_day (td : timedelta) :
  normalised td -> 0 <= total_seconds td < seconds_per_day ->
  seconds td = total_seconds td.
Proof.
  intros Hn Hrange. rewrite (normalised_seconds_mod td Hn).
  apply Z.mod_small. exact Hrange.
Qed.

(** What a successful run tells about the configuration. *)
Lemma compute_cache_header_Ok_inv (c : CacheConfigT) (header : string) :
  compute_cache_header c = Ok header ->
  header = join ", " (spec_tokens c) /\ exists td, max_age c = PyTimedelta td.
Proof.
  intros Hrun. destruct (max_age c) as [|td] eqn:Hm.
  - unfold compute_cache_header, compute_params in Hrun.
    rewrite Hm in Hrun. discriminate Hrun.
  - rewrite (compute_cache_header_spec c td Hm) in Hrun.
    injection Hrun as <-. split; [reflexivity | exists td; reflexivity].
Qed.

(** The number after [max-age=] is the total number of seconds of the
    duration modulo one day: the days of [max_age] do not show. *)
Theorem max_age_shows_total_seconds_modulo_a_day
    (c : CacheConfigT) (td : timedelta) :
  normalised td ->
  max_age c = PyTimedelta td ->
  exists header rest,
    compute_cache_header c = Ok header /\
    tokens header
    = ("max-age=" ++ str_of_int (total_seconds td mod seconds_per_day)) :: rest.
Proof.
  intros Hn Hm. destruct (spec_tokens_head c) as [rest Hrest].
  exists (join ", " (spec_tokens c)), rest.
  split; [apply (compute_cache_header_spec c td Hm)|].
  rewrite tokens_join_spec_tokens, Hrest, Hm. simpl rendered_seconds.
  rewrite <- (normalised_seconds_mod td Hn). reflexivity.
Qed.

Lemma max_age_shows_total_seconds_modulo_a_day_witness :
  exists header rest,
    compute_cache_header sample_config = Ok header /\
    tokens header = "max-age=600" :: rest.
Proof.
  assert (normalised a_day_and_ten_minutes) as Hn.
  { unfold normalised, max_days, seconds_per_day, us_per_second. simpl. lia. }
  exact (max_age_shows_total_seconds_modulo_a_day
           sample_config a_day_and_ten_minutes Hn eq_refl).
Defined.

(** For a duration of less than a day, and not negative, the number after
    [max-age=] is the total number of seconds. *)
Theorem max_age_exact_under_a_day (c : CacheConfigT) (td : timedelta) :
  normalised td ->
  0 <= total_seconds td < seconds_per_day ->
  max_age c = PyTimedelta td ->
  exists header rest,
    compute_cache_header c = Ok header /\
    tokens header = ("max-age=" ++ str_of_int (total_seconds td)) :: rest.
Proof.
  intros Hn Hrange Hm. destruct (spec_tokens_head c) as [rest Hrest].
  exists (join ", " (spec_tokens c)), rest.
  split; [apply (compute_cache_header_spec c td Hm)|].
  rewrite tokens_join_spec_tokens, Hrest, Hm. simpl rendered_seconds.
  rewrite (normalised_under_a_day td Hn Hrange). reflexivity.
Qed.

Lemma max_age_exact_under_a_day_witness :
  exists header rest,
    compute_cache_header
      {| max_age := PyTimedelta ten_minutes; s_max_age := PyNone;
         public := true; private := false; no_cache := false;
         no_store := false; must_revalidate := true;
         proxy_revalidate := false |} = Ok header /\
    tokens header = "max-age=600" :: rest.
Proof.
  assert (normalised ten_minutes) as Hn.
  { unfold normalised, max_days, seconds_per_day, us_per_second. simpl. lia. }
  assert (0 <= total_seconds ten_minutes < seconds_per_day) as Hrange.
  { unfold total_seconds, seconds_per_day. simpl. lia. }
  exact (max_age_exact_under_a_day
           {| max_age := PyTimedelta ten_minutes; s_max_age := PyNone;
              public := true; private := false; no_cache := false;
              no_store := false; must_revalidate := true;
              proxy_revalidate := false |}
           ten_minutes Hn Hrange eq_refl).
Defined.

(** A non-zero [s_max_age] is shown the same way: the token holds its total
    seconds modulo one day, so a whole number of days gives [s-max-age=0]. *)
Theorem s_max_age_shows_total_seconds_modulo_a_day
    (c : CacheConfigT) (td std : timedelta) :
  normalised std ->
  std <> Timedelta.zero ->
  max_age c = PyTimedelta td ->
  s_max_age c = PyTimedelta std ->
  exists header,
    compute_cache_header c = Ok header /\
    ("s-max-age=" ++ str_of_int (total_seconds std mod seconds_per_day))
      ∈ tokens header.
Proof.
  intros Hn Hnz Hm Hsm.
  exists (join ", " (spec_tokens c)).
  split; [apply (compute_cache_header_spec c td Hm)|].
  rewrite tokens_join_spec_tokens.
  apply elem_of_spec_tokens. right. left. rewrite Hsm. simpl. split.
  - apply timedelta_truthy_spec. exact Hnz.
  - rewrite <- (normalised_seconds_mod std Hn). reflexivity.
Qed.

Lemma s_max_age_shows_total_seconds_modulo_a_day_witness :
  exists header,
    compute_cache_header sample_config = Ok header /\
    "s-max-age=0" ∈ tokens header.
Proof.
  assert (normalised {| days := 1; seconds := 0; microseconds := 0 |}) as Hn.
  { unfold normalised, max_days, seconds_per_day, us_per_second. simpl. lia. }
  assert ({| days := 1; seconds := 0; microseconds := 0 |} <> Timedelta.zero)
    as Hnz by discriminate.
  exact (s_max_age_shows_total_seconds_modulo_a_day sample_config
           a_day_and_ten_minutes _ Hn Hnz eq_refl eq_refl).
Defined.

(** ** Reading the configuration off the header *)

(** Settle a membership in the table that names one fixed directive. *)
Ltac table_cases H :=
  apply elem_of_spec_tokens in H;
  destruct H as [H|[[? H]|[[? H]|[[? H]|[[? H]|[[? H]|[[? H]|[? H]]]]]]]];
  try (simpl in H; discriminate H); try assumption.

Lemma public_token (c : CacheConfigT) :
  "public" ∈ spec_tokens c <-> public c = true.
Proof.
  split; [intros H; table_cases H|].
  intros E. apply elem_of_spec_tokens. do 2 right. left. auto.
Qed.

Lemma private_token (c : CacheConfigT) :
  "private" ∈ spec_tokens c <-> private c = true.
Proof.
  split; [intros H; table_cases H|].
  intros E. apply elem_of_spec_tokens. do 3 right. left. auto.
Qed.

Lemma no_cache_token (c : CacheConfigT) :
  "no-cache" ∈ spec_tokens c <-> no_cache c = true.
Proof.
  split; [intros H; table_cases H|].
  intros E. apply elem_of_spec_tokens. do 4 right. left. auto.
Qed.

Lemma no_store_token (c : CacheConfigT) :
  "no-store" ∈ spec_tokens c <-> no_store c = true.
Proof.
  split; [intros H; table_cases H|].
  intros E. apply elem_of_spec_tokens. do 5 right. left. auto.
Qed.

Lemma must_revalidate_token (c : CacheConfigT) :
  "must-revalidate" ∈ spec_tokens c <-> must_revalidate c = true.
Proof.
  split; [intros H; table_cases H|].
  intros E. apply elem_of_spec_tokens. do 6 right. left. auto.
Qed.

Lemma proxy_revalidate_token (c : CacheConfigT) :
  "proxy-revalidate" ∈ spec_tokens c <-> proxy_revalidate c = true.
Proof.
  split; [intros H; table_cases H|].
  intros E. apply elem_of_spec_tokens. do 7 right. auto.
Qed.

(** Each of the flags [public], [private], [no_cache], [no_store] and
    [proxy_revalidate] is true exactly when the header has the token of
    that name. *)
Theorem flags_show_as_tokens (c : CacheConfigT) (header : string) :
  compute_cache_header c = Ok header ->
  ("public" ∈ tokens header <-> public c = true) /\
  ("private" ∈ tokens header <-> private c = true) /\
  ("no-cache" ∈ tokens header <-> no_cache c = true) /\
  ("no-store" ∈ tokens header <-> no_store c = true) /\
  ("proxy-revalidate" ∈ tokens header <-> proxy_revalidate c = true).
Proof.
  intros Hrun. apply compute_cache_header_Ok_inv in Hrun as [-> _].
  rewrite tokens_join_spec_tokens.
  split; [apply public_token|]. split; [apply private_token|].
  split; [apply no_cache_token|]. split; [apply no_store_token|].
  apply proxy_revalidate_token.
Qed.

Lemma flags_show_as_tokens_witness :
  ("public" ∈ tokens "max-age=600, s-max-age=0, private, no-store, must-revalidate"
   <-> public sample_config = true) /\
  ("private" ∈ tokens "max-age=600, s-max-age=0, private, no-store, must-revalidate"
   <-> private sample_config = true) /\
  ("no-cache" ∈ tokens "max-age=600, s-max-age=0, private, no-store, must-revalidate"
   <-> no_cache sample_config = true) /\
  ("no-store" ∈ tokens "max-age=600, s-max-age=0, private, no-store, must-revalidate"
   <-> no_store sample_config = true) /\
  ("proxy-revalidate" ∈ tokens "max-age=600, s-max-age=0, private, no-store, must-revalidate"
   <-> proxy_revalidate sample_config = true).
Proof.
  exact (flags_show_as_tokens sample_config
           "max-age=600, s-max-age=0, private, no-store, must-revalidate"
           eq_refl).
Defined.

(** The decimal rendering tells integers apart. *)
Lemma str_of_int_inj (a b : Z) : str_of_int a = str_of_int b -> a = b.
Proof.
  unfold str_of_int. intros Heq. apply DecimalZ.to_int_inj.
  pose proof (NilEmpty.isi (Z.to_int a)) as Ha.
  rewrite Heq, NilEmpty.isi in Ha. injection Ha as Ha. symmetry. exact Ha.
Qed.

Lemma string_app_inv_head (p a b : string) : p ++ a = p ++ b -> a = b.
Proof.
  induction p as [|ch p IH]; simpl; intros Heq.
  - exact Heq.
  - injection Heq as Heq. apply IH, Heq.
Qed.

Lemma bool_eq_of_iff (a b : bool) : (a = true <-> b = true) -> a = b.
Proof.
  destruct a, b; intros [H1 H2]; try reflexivity.
  - symmetry. apply H1. reflexivity.
  - apply H2. reflexivity.
Qed.

(** Two configurations with the same header agree on everything the header
    is made from: the [.seconds] of [max_age], whether [s_max_age] counts as
    set and, when it does, its [.seconds], and the six flags. *)
Theorem same_header_same_directives (c1 c2 : CacheConfigT) (header : string) :
  compute_cache_header c1 = Ok header ->
  compute_cache_header c2 = Ok header ->
  getattr_seconds (max_age c1) = getattr_seconds (max_age c2) /\
  truthy (s_max_age c1) = truthy (s_max_age c2) /\
  (truthy (s_max_age c1) = true ->
   getattr_seconds (s_max_age c1) = getattr_seconds (s_max_age c2)) /\
  public c1 = public c2 /\ private c1 = private c2 /\
  no_cache c1 = no_cache c2 /\ no_store c1 = no_store c2 /\
  must_revalidate c1 = must_revalidate c2 /\
  proxy_revalidate c1 = proxy_revalidate c2.
Proof.
  intros H1 H2.
  apply compute_cache_header_Ok_inv in H1 as [Hh1 [td1 Hm1]].
  apply compute_cache_header_Ok_inv in H2 as [Hh2 [td2 Hm2]].
  assert (spec_tokens c1 = spec_tokens c2) as Heq.
  { rewrite <- (tokens_join_spec_tokens c1), <- (tokens_join_spec_tokens c2).
    rewrite <- Hh1, <- Hh2. reflexivity. }
  assert (forall t, t ∈ spec_tokens c1 <-> t ∈ spec_tokens c2) as Hmem.
  { intros t. rewrite Heq. reflexivity. }
  assert (forall ca cb, spec_tokens ca = spec_tokens cb ->
            truthy (s_max_age ca) = true ->
            truthy (s_max_age cb) = true
            /\ rendered_seconds (s_max_age ca) = rendered_seconds (s_max_age cb))
    as Hsmax.
  { intros ca cb Hab Hta.
    assert (("s-max-age=" ++ rendered_seconds (s_max_age ca)) ∈ spec_tokens cb)
      as Hin.
    { rewrite <- Hab. apply elem_of_spec_tokens. right. left. auto. }
    destruct (s_max_age_token_inv cb _ Hin eq_refl) as [Htb Hr].
    split; [exact Htb|]. apply (string_app_inv_head "s-max-age="), Hr. }
  split; [|split; [|split]].
  - destruct (spec_tokens_head c1) as [r1 Hr1].
    destruct (spec_tokens_head c2) as [r2 Hr2].
    rewrite Hr1, Hr2, Hm1, Hm2 in Heq. injection Heq as Hhead _.
    rewrite Hm1, Hm2. simpl. f_equal. apply str_of_int_inj.
    exact Hhead.
  - apply bool_eq_of_iff. split; intros Ht.
    + apply (Hsmax c1 c2 Heq Ht).
    + apply (Hsmax c2 c1 (eq_sym Heq) Ht).
  - intros Ht. destruct (Hsmax c1 c2 Heq Ht) as [Ht2 Hr].
    destruct (s_max_age c1) as [|s1]; [discriminate Ht|].
    destruct (s_max_age c2) as [|s2]; [discriminate Ht2|].
    simpl in *. f_equal. apply str_of_int_inj. exact Hr.
  - repeat split; apply bool_eq_of_iff.
    + rewrite <- !public_token. apply Hmem.
    + rewrite <- !private_token. apply Hmem.
    + rewrite <- !no_cache_token. apply Hmem.
    + rewrite <- !no_store_token. apply Hmem.
    + rewrite <- !must_revalidate_token. apply Hmem.
    + rewrite <- !proxy_revalidate_token. apply Hmem.
Qed.

Lemma same_header_same_directives_witness :
  getattr_seconds (max_age sample_config)
  = getattr_seconds (max_age sample_config_other_days) /\
  truthy (s_max_age sample_config) = truthy (s_max_age sample_config_other_days) /\
  (truthy (s_max_age sample_config) = true ->
   getattr_seconds (s_max_age sample_config)
   = getattr_seconds (s_max_age sample_config_other_days)) /\
  public sample_config = public sample_config_other_days /\
  private sample_config = private sample_config_other_days /\
  no_cache sample_config = no_cache sample_config_other_days /\
  no_store sample_config = no_store sample_config_other_days /\
  must_revalidate sample_config = must_revalidate sample_config_other_days /\
  proxy_revalidate sample_config = proxy_revalidate sample_config_other_days.
Proof.
  exact (same_header_same_directives sample_config sample_config_other_days
           "max-age=600, s-max-age=0, private, no-store, must-revalidate"
           eq_refl eq_refl).
Defined.

(** ** The shape of the header *)

Lemma directive_names_NoDup (c : CacheConfigT) :
  NoDup (map snd (directive_table c)).
Proof.
  unfold directive_table. simpl.
  repeat (apply NoDup_cons; split;
          [rewrite ?not_elem_of_cons; repeat split;
           try apply not_elem_of_nil; simpl; discriminate|]).
  apply NoDup_nil. exact I.
Qed.

Lemma spec_tokens_sublist (c : CacheConfigT) :
  spec_tokens c `sublist_of` map snd (directive_table c).
Proof. unfold spec_tokens. apply fmap_sublist, sublist_filter. Qed.

(** No directive is written twice. *)
Theorem header_tokens_NoDup (c : CacheConfigT) (header : string) :
  compute_cache_header c = Ok header -> NoDup (tokens header).
Proof.
  intros Hrun. apply compute_cache_header_Ok_inv in Hrun as [-> _].
  rewrite tokens_join_spec_tokens.
  apply (sublist_NoDup _ _ (directive_names_NoDup c)), spec_tokens_sublist.
Qed.

Lemma header_tokens_NoDup_witness :
  NoDup (tokens "max-age=600, s-max-age=0, private, no-store, must-revalidate").
Proof.
  exact (header_tokens_NoDup sample_config
           "max-age=600, s-max-age=0, private, no-store, must-revalidate"
           eq_refl).
Defined.

(** The header has one token for [max-age] and one more for every condition
    that holds: between one and eight in all. *)
Lemma spec_tokens_length (c : CacheConfigT) :
  List.length (spec_tokens c) = S (enabled_directives c).
Proof.
  destruct c as [m sm pu pr nc ns mr prx].
  unfold spec_tokens, directive_table, enabled_directives. simpl.
  destruct (truthy sm), pu, pr, nc, ns, mr, prx; reflexivity.
Qed.

Lemma enabled_directives_le_7 (c : CacheConfigT) :
  (enabled_directives c <= 7)%nat.
Proof.
  unfold enabled_directives.
  destruct (truthy (s_max_age c)), (public c), (private c), (no_cache c),
    (no_store c), (must_revalidate c), (proxy_revalidate c); simpl; lia.
Qed.

Theorem header_token_count (c : CacheConfigT) (header : string) :
  compute_cache_header c = Ok header ->
  List.length (tokens header) = S (enabled_directives c)
  /\ (1 <= List.length (tokens header) <= 8)%nat.
Proof.
  intros Hrun. apply compute_cache_header_Ok_inv in Hrun as [-> _].
  rewrite tokens_join_spec_tokens, spec_tokens_length.
  pose proof (enabled_directives_le_7 c). split; [reflexivity | lia].
Qed.

Lemma header_token_count_witness :
  List.length
    (tokens "max-age=600, s-max-age=0, private, no-store, must-revalidate")
  = S (enabled_directives sample_config)
  /\ (1 <= List.length
            (tokens "max-age=600, s-max-age=0, private, no-store, must-revalidate")
      <= 8)%nat.
Proof.
  exact (header_token_count sample_config
           "max-age=600, s-max-age=0, private, no-store, must-revalidate"
           eq_refl).
Defined.

Lemma all_chars_app (p : ascii -> bool) (s t : string) :
  all_chars p (s ++ t) = all_chars p s && all_chars p t.
Proof.
  induction s as [|ch s IH]; simpl.
  - reflexivity.
  - rewrite IH. apply andb_assoc.
Qed.

Lemma header_chars_uint (u : Decimal.uint) :
  all_chars header_char (NilEmpty.string_of_uint u) = true.
Proof.
  induction u as [|u IH|u IH|u IH|u IH|u IH|u IH|u IH|u IH|u IH|u IH];
    simpl; auto.
Qed.

Lemma header_chars_rendered_seconds (v : pyval) :
  all_chars header_char (rendered_seconds v) = true.
Proof.
  destruct v as [|td]; simpl; [reflexivity|].
  unfold str_of_int.
  destruct (Z.to_int (seconds td)) as [u|u]; simpl; apply header_chars_uint.
Qed.

Lemma header_chars_join (l : list string) :
  Forall (fun t => all_chars header_char t = true) l ->
  all_chars header_char (join ", " l) = true.
Proof.
  intros Hall. induction Hall as [|t l Ht Hl IH].
  - reflexivity.
  - destruct l as [|u l].
    + exact Ht.
    + change (join ", " (t :: u :: l)) with (t ++ ", " ++ join ", " (u :: l)).
      rewrite !all_chars_app, Ht, IH. reflexivity.
Qed.

Lemma spec_tokens_header_chars (c : CacheConfigT) :
  Forall (fun t => all_chars header_char t = true) (spec_tokens c).
Proof.
  unfold spec_tokens. apply Forall_fmap, Forall_forall.
  intros d Hd. apply list_elem_of_filter in Hd as [_ Hd].
  revert d Hd. apply Forall_forall. unfold directive_table.
  repeat constructor; simpl; try reflexivity;
    apply header_chars_rendered_seconds.
Qed.

(** The header is written in lower-case letters, digits, hyphens, equals
    signs, commas and spaces only: it holds no line break and no other
    control character, whatever the configuration. *)
Theorem header_alphabet (c : CacheConfigT) (header : string) :
  compute_cache_header c = Ok header ->
  all_chars header_char header = true.
Proof.
  intros Hrun. apply compute_cache_header_Ok_inv in Hrun as [-> _].
  apply header_chars_join, spec_tokens_header_chars.
Qed.

Lemma header_alphabet_witness :
  all_chars header_char
    "max-age=600, s-max-age=0, private, no-store, must-revalidate" = true.
Proof.
  exact (header_alphabet sample_config
           "max-age=600, s-max-age=0, private, no-store, must-revalidate"
           eq_refl).
Defined.

(** The header is the [max-age] token alone, without a separator, exactly
    when [s_max_age] is unset or zero and all six flags are false. *)
Theorem header_is_bare_max_age (c : CacheConfigT) (td : timedelta) :
  max_age c = PyTimedelta td ->
  (compute_cache_header c = Ok ("max-age=" ++ str_of_int (seconds td))
   <-> enabled_directives c = 0%nat).
Proof.
  intros Hm. split.
  - intros Hrun. apply compute_cache_header_Ok_inv in Hrun as [Hh _].
    assert (spec_tokens c = ["max-age=" ++ str_of_int (seconds td)]) as Htok.
    { rewrite <- (tokens_join_spec_tokens c), <- Hh. unfold tokens.
      apply split_comma_free. rewrite comma_free_app, comma_free_str_of_int.
      reflexivity. }
    pose proof (spec_tokens_length c) as Hlen. rewrite Htok in Hlen.
    simpl in Hlen. lia.
  - intros Hnone. rewrite (compute_cache_header_spec c td Hm). f_equal.
    destruct c as [m sm pu pr nc ns mr prx]. simpl in Hm. subst m.
    unfold enabled_directives in Hnone. simpl in Hnone.
    unfold spec_tokens, directive_table. simpl.
    destruct (truthy sm), pu, pr, nc, ns, mr, prx;
      try discriminate Hnone; reflexivity.
Qed.

Lemma header_is_bare_max_age_witness :
  let c := {| max_age := PyTimedelta ten_minutes;
              s_max_age := PyTimedelta Timedelta.zero;
              public := false; private := false; no_cache := false;
              no_store := false; must_revalidate := false;
              proxy_revalidate := false |} in
  compute_cache_header c = Ok "max-age=600" <-> enabled_directives c = 0%nat.
Proof.
  intros c. exact (header_is_bare_max_age c ten_minutes eq_refl).
Defined.

(** ** More on the decorator *)

Lemma cache_null_max_age_raises_on_call_witness :
  exists wrapper,
    cache null_max_age_args = Ok wrapper /\
    wrapper write_args fresh_handler ["ok"] [("pretty", "1")]
    = (fresh_handler, Raise AttributeError).
Proof.
  exact (cache_null_max_age_raises_on_call null_max_age_args write_args
           fresh_handler ["ok"] [("pretty", "1")] eq_refl).
Defined.

(** Two [cache] decorators on one method: the outer one sets its header
    first, the inner one sets its own after that, and then the method
    runs, once, on the arguments of the call. *)
Theorem stacked_cache_sets_outer_then_inner {H V R : Type} `{Handler H}
    (outer inner : call_args) (td_outer td_inner : timedelta)
    (fn : method H V R) (self : H) (args : list V) (kwargs : list (string * V)) :
  arg_max_age outer = Some (PyTimedelta td_outer) ->
  arg_max_age inner = Some (PyTimedelta td_inner) ->
  exists w_outer w_inner cfg_outer cfg_inner h_outer h_inner,
    cache outer = Ok w_outer /\ cache inner = Ok w_inner /\
    CacheConfig outer = Ok cfg_outer /\ CacheConfig inner = Ok cfg_inner /\
    compute_cache_header cfg_outer = Ok h_outer /\
    compute_cache_header cfg_inner = Ok h_inner /\
    w_outer (w_inner fn) self args kwargs
    = fn (set_header "Cache-Control" h_inner
            (set_header "Cache-Control" h_outer self)) args kwargs.
Proof.
  intros Hout Hin.
  destruct (cache_binds_like_CacheConfig (V := V) (R := R) outer _ Hout)
    as (cfg_o & Hcfg_o & Hcache_o).
  destruct (cache_binds_like_CacheConfig (V := V) (R := R) inner _ Hin)
    as (cfg_i & Hcfg_i & Hcache_i).
  assert (max_age cfg_o = PyTimedelta td_outer) as Hmo.
  { unfold CacheConfig in Hcfg_o. rewrite Hout in Hcfg_o.
    injection Hcfg_o as <-. reflexivity. }
  assert (max_age cfg_i = PyTimedelta td_inner) as Hmi.
  { unfold CacheConfig in Hcfg_i. rewrite Hin in Hcfg_i.
    injection Hcfg_i as <-. reflexivity. }
  pose proof (compute_cache_header_spec cfg_o td_outer Hmo) as Hho.
  pose proof (compute_cache_header_spec cfg_i td_inner Hmi) as Hhi.
  eexists. eexists. exists cfg_o, cfg_i.
  exists (join ", " (spec_tokens cfg_o)), (join ", " (spec_tokens cfg_i)).
  split; [exact Hcache_o|]. split; [exact Hcache_i|].
  split; [exact Hcfg_o|]. split; [exact Hcfg_i|].
  split; [exact Hho|]. split; [exact Hhi|].
  rewrite _func_unfold, Hho. simpl.
  rewrite _func_unfold, Hhi. reflexivity.
Qed.

Lemma stacked_cache_sets_outer_then_inner_witness :
  exists w_outer w_inner cfg_outer cfg_inner h_outer h_inner,
    cache a_day_private = Ok w_outer /\ cache ten_minutes_public = Ok w_inner /\
    CacheConfig a_day_private = Ok cfg_outer /\
    CacheConfig ten_minutes_public = Ok cfg_inner /\
    compute_cache_header cfg_outer = Ok h_outer /\
    compute_cache_header cfg_inner = Ok h_inner /\
    w_outer (w_inner write_args) fresh_handler ["ok"] [("pretty", "1")]
    = write_args (set_header "Cache-Control" h_inner
                    (set_header "Cache-Control" h_outer fresh_handler))
        ["ok"] [("pretty", "1")].
Proof.
  exact (stacked_cache_sets_outer_then_inner a_day_private ten_minutes_public
           a_day_and_ten_minutes ten_minutes
           write_args fresh_handler ["ok"] [("pretty", "1")] eq_refl eq_refl).
Defined.

Example stacked_on_the_framework_handler :
  (w_outer ← cache a_day_private;
   w_inner ← cache ten_minutes_public;
   Ok (w_outer (w_inner write_args) fresh_handler ["ok"] []))
  = Ok ({| _headers := {[ "Cache-Control" := "max-age=600, public, must-revalidate" ]};
           _status_code := 200;
           _write_buffer := ["ok"] |},
        Ok 0%nat).
Proof. vm_compute. reflexivity. Qed.

(** ** What a call leaves on the heap *)

(** A call appends to its own list only: every list that was on the heap
    before the call holds the same items after it. *)
Theorem compute_cache_header_in_keeps_other_lists
    (h : heap) (c : CacheConfigT) (b : loc) :
  is_Some (h !! b) ->
  snd (compute_cache_header_in h c) !! b = h !! b.
Proof.
  intros Hb. pose proof (new_list_fresh h b Hb) as Hne.
  unfold compute_cache_header_in, new_list in *. simpl in Hne.
  destruct (getattr_seconds (max_age c)) as [secs|e]; simpl.
  - destruct (truthy (s_max_age c));
      [destruct (getattr_seconds (s_max_age c)) as [s_secs|e]|]; simpl;
      rewrite ?list_append_if_other, ?list_append_other by exact Hne;
      apply lookup_insert_ne, Hne.
  - apply lookup_insert_ne, Hne.
Qed.

Lemma compute_cache_header_in_keeps_other_lists_witness :
  snd (compute_cache_header_in busy_heap sample_config) !! 2%positive
  = busy_heap !! 2%positive.
Proof.
  assert (is_Some (busy_heap !! 2%positive)) as Hb.
  { exists ["max-age=1"; "public"]. reflexivity. }
  exact (compute_cache_header_in_keeps_other_lists busy_heap sample_config
           2%positive Hb).
Defined.
